(** * adafruit_mcp9600: a shallow embedding of the MCP9600 thermocouple driver

    The driver is a thin register-access layer over an I2C device: the
    constructor validates the thermocouple type, clamps the filter level and
    writes one configuration byte; four properties read a register pair and
    decode it.  The embedding follows [adafruit_mcp9600.py] statement by
    statement:

    - Python [int] is [Z]; a [bytearray] is a [list Z] whose item assignment
      checks the index and the byte range as Python does;
    - Python [float] is IEEE binary64, which is the kernel's primitive
      [float]; values are additionally related to exact rationals;
    - the bus is explicit state: the list of transactions the driver has
      requested of its [I2CDevice], oldest first;
    - [raise] is the left summand of the result. *)

From Stdlib Require Import ZArith QArith Floats Uint63.
From Stdlib.Strings Require Import Byte.
From stdpp Require Import base numbers list strings.

Local Open Scope Z_scope.

(** ** Module constants *)

Definition _DEFAULT_ADDRESS : Z := 0x67.

Definition _REGISTER_HOT_JUNCTION : Z := 0x00.
Definition _REGISTER_DELTA_TEMP : Z := 0x01.
Definition _REGISTER_COLD_JUNCTION : Z := 0x02.
Definition _REGISTER_THERM_CFG : Z := 0x05.
Definition _REGISTER_VERSION : Z := 0x20.

(** ** Exceptions

    [Exception msg] is the bare [Exception] the constructor raises; the other
    three are what the built-in operations used by the driver raise
    ([bytearray] item assignment, [tuple.index], [struct.unpack]). *)

Inductive exn : Type :=
  | Exception (msg : string)
  | ValueError
  | IndexError
  | struct_error.

(** The constructor's only domain error, named as the specification names it. *)
Definition InvalidConfiguration (tctype : string) : exn :=
  Exception ("invalid thermocouple type (" +:+ tctype +:+ ")").

(** ** The bus

    A transaction is what goes over the wire for one call of the device's
    [write] or [write_then_readinto]: the 7-bit address, the bytes sent and,
    for the combined transaction, the number of bytes clocked in. *)

Inductive transaction : Type :=
  | Write (address : Z) (out : list Z)
  | WriteThenReadinto (address : Z) (out : list Z) (in_len : nat).

Definition I2C : Type := list transaction.

Record I2CDevice : Type := { device_address : Z }.

(** ** State and exception monad over the bus *)

Definition M (A : Type) : Type := I2C → (exn + A) * I2C.

Global Instance M_ret : MRet M := λ A (x : A) bus, (inr x, bus).

Global Instance M_bind : MBind M := λ A B (f : A → M B) (m : M A) bus,
  match m bus with
  | (inl e, bus') => (inl e, bus')
  | (inr x, bus') => f x bus'
  end.

Definition raise {A : Type} (e : exn) : M A := λ bus, (inl e, bus).

(** ** Built-in operations the driver relies on *)

(** [bytearray(n)]. *)
Definition bytearray (n : nat) : list Z := replicate n 0.

(** [b[i] = v] on a bytearray. *)
Definition setitem (b : list Z) (i : nat) (v : Z) : M (list Z) :=
  if decide (i < length b)%nat
  then if decide (0 ≤ v < 256) then mret (<[i := v]> b) else raise ValueError
  else raise IndexError.

(** [b[i]]. *)
Definition getitem (b : list Z) (i : nat) : M Z :=
  match b !! i with
  | Some v => mret v
  | None => raise IndexError
  end.

(** [b[start:end]] for non-negative bounds. *)
Definition slice (b : list Z) (start end_ : nat) : list Z :=
  take (end_ - start) (drop start b).

(** [t.index(x)] on a tuple: position of the first equal item. *)
Definition index (t : list string) (x : string) : M Z :=
  match list_find (λ y, y = x) t with
  | Some (i, _) => mret (Z.of_nat i)
  | None => raise ValueError
  end.

(** [unpack(">xH", data)[0]]: one pad byte, then a big-endian unsigned
    16-bit integer; the buffer must be exactly three bytes long. *)
Definition unpack_xH (data : list Z) : M Z :=
  match data with
  | [_; b1; b2] => mret (Z.lor (Z.shiftl b1 8) b2)
  | _ => raise struct_error
  end.

(** Conversion of a Python [int] operand of a float operation. *)
Definition float_of_int (z : Z) : float :=
  if z <? 0 then (- PrimFloat.of_uint63 (Uint63.of_Z (- z)))%float
  else PrimFloat.of_uint63 (Uint63.of_Z z).

(** The value of a byte on the wire. *)
Definition byte_val (b : byte) : Z := Z.of_N (Byte.to_N b).

(** ** The driver, relative to the chip on the other end of the bus *)

Section Driver.

(** What the peripheral clocks out: byte [i] of the read phase of a
    transaction, given everything that went over the bus before. *)
Variable peripheral : I2C → transaction → nat → byte.

(** [I2CDevice(i2c, address)]: the handle bound to one address.  The presence
    probe some versions of the collaborator perform is its own traffic, not a
    transaction requested by the driver, and is not logged. *)
Definition I2CDevice_init (address : Z) : M I2CDevice :=
  mret {| device_address := address |}.

(** [device.write(buffer, start=.., end=..)]. *)
Definition write (device : I2CDevice) (buffer : list Z)
    (start : nat) (end_ : option nat) : M unit :=
  let end_ := default (length buffer) end_ in
  λ bus, (inr (), bus ++ [Write (device_address device) (slice buffer start end_)]).

(** [device.write_then_readinto(out_buffer, in_buffer, out_start=..,
    out_end=.., in_start=.., in_end=..)]; returns the new content of
    [in_buffer].  The bytes sent are taken before the read phase stores
    anything, so passing one buffer for both is harmless. *)
Definition write_then_readinto (device : I2CDevice)
    (out_buffer in_buffer : list Z)
    (out_start : nat) (out_end : option nat)
    (in_start : nat) (in_end : option nat) : M (list Z) :=
  let out_end := default (length out_buffer) out_end in
  let in_end := default (length in_buffer) in_end in
  λ bus,
    let out := slice out_buffer out_start out_end in
    let n := length (slice in_buffer in_start in_end) in
    let t := WriteThenReadinto (device_address device) out n in
    let received := (λ i, byte_val (peripheral bus t i)) <$> seq 0 n in
    (inr (take in_start in_buffer ++ received ++ drop (in_start + n) in_buffer),
     bus ++ [t]).

(** *** class MCP9600 *)

Definition types : list string := ["K"; "J"; "T"; "N"; "S"; "E"; "B"; "R"].

Record MCP9600 : Type := {
  buf : list Z;
  i2c_device : I2CDevice;
  type : string;
}.

Definition __init__ (address : Z) (tctype : string) (tcfilter : Z) : M MCP9600 :=
  let buf := bytearray 3 in
  i2c_device ← I2CDevice_init address;
  let type := tctype in
  if decide (tctype ∉ types) then raise (InvalidConfiguration tctype) else
  let tcfilter := Z.min 7 (Z.max 0 tcfilter) in
  ttype ← index types tctype;
  buf ← setitem buf 0 _REGISTER_THERM_CFG;
  buf ← setitem buf 1 (Z.lor tcfilter (Z.shiftl ttype 4));
  _ ← write i2c_device buf 0 (Some 2%nat);
  mret {| buf := buf; i2c_device := i2c_device; type := type |}.

Definition _read_register (self : MCP9600) (reg : Z) (count : nat)
    : M (list Z * MCP9600) :=
  buf ← setitem (buf self) 0 reg;
  buf ← write_then_readinto (i2c_device self) buf buf 0 (Some count) 1 None;
  let self := {| buf := buf; i2c_device := i2c_device self; type := type self |} in
  mret (buf, self).

Definition version (self : MCP9600) : M (Z * MCP9600) :=
  '(data, self) ← _read_register self _REGISTER_VERSION 2;
  v ← unpack_xH data;
  mret (v, self).

Definition ambient_temperature (self : MCP9600) : M (float * MCP9600) :=
  '(data, self) ← _read_register self _REGISTER_COLD_JUNCTION 2;
  raw ← unpack_xH data;
  let value := (float_of_int raw * 0.0625)%float in
  d1 ← getitem data 1;
  let value := if Z.land d1 0x80 =? 0 then value else (value - 4096)%float in
  mret (value, self).

Definition temperature (self : MCP9600) : M (float * MCP9600) :=
  '(data, self) ← _read_register self _REGISTER_HOT_JUNCTION 2;
  raw ← unpack_xH data;
  let value := (float_of_int raw * 0.0625)%float in
  d1 ← getitem data 1;
  let value := if Z.land d1 0x80 =? 0 then value else (value - 4096)%float in
  mret (value, self).

Definition delta_temperature (self : MCP9600) : M (float * MCP9600) :=
  '(data, self) ← _read_register self _REGISTER_DELTA_TEMP 2;
  raw ← unpack_xH data;
  let value := (float_of_int raw * 0.0625)%float in
  d1 ← getitem data 1;
  let value := if Z.land d1 0x80 =? 0 then value else (value - 4096)%float in
  mret (value, self).

End Driver.

(** ** Vocabulary of the statements *)

(** The clamp of the specification, [max(lo, min(hi, x))]. *)
Definition clamp (x lo hi : Z) : Z := Z.max lo (Z.min hi x).

(** The type index table of the specification's register map. *)
Definition type_index_table : list (string * Z) :=
  [("K", 0); ("J", 1); ("T", 2); ("N", 3); ("S", 4); ("E", 5); ("B", 6); ("R", 7)].

(** The registers that hold a temperature, and the property that reads each. *)
Inductive temperature_register : Type := HotJunction | DeltaTemp | ColdJunction.

Definition register_address (r : temperature_register) : Z :=
  match r with
  | HotJunction => _REGISTER_HOT_JUNCTION
  | DeltaTemp => _REGISTER_DELTA_TEMP
  | ColdJunction => _REGISTER_COLD_JUNCTION
  end.

Definition read_temperature (peripheral : I2C → transaction → nat → byte)
    (r : temperature_register) : MCP9600 → M (float * MCP9600) :=
  match r with
  | HotJunction => temperature peripheral
  | DeltaTemp => delta_temperature peripheral
  | ColdJunction => ambient_temperature peripheral
  end.

(** The big-endian value of a byte pair. *)
Definition raw16 (hi lo : Z) : Z := Z.lor (Z.shiftl hi 8) lo.

(** The decoding of a payload [hi, lo], with the sign flag read off [hi]. *)
Definition celsius (hi lo : Z) : float :=
  let value := (float_of_int (raw16 hi lo) * 0.0625)%float in
  if Z.testbit hi 7 then (value - 4096)%float else value.

(** The transaction a read of register [reg] with [count] puts on the bus. *)
Definition read_transaction (self : MCP9600) (reg : Z) (count : nat) : transaction :=
  WriteThenReadinto (device_address (i2c_device self))
    (take count (<[0%nat := reg]> (buf self))) (length (buf self) - 1).

(** The driver after a read that received [hi] and [lo]. *)
Definition after_read (self : MCP9600) (reg hi lo : Z) : MCP9600 :=
  {| buf := [reg; hi; lo]; i2c_device := i2c_device self; type := type self |}.

Definition float_to_Q (f : float) : option Q :=
  match Prim2SF f with
  | S754_zero _ => Some 0%Q
  | S754_finite s m e =>
      Some (inject_Z (if s then Z.neg m else Z.pos m) * Qpower (2 # 1) e)%Q
  | _ => None
  end.

(** The formula over the rationals: 0.0625 per LSB, 4096 off when bit 15 of
    the pair is set. *)
Definition celsius_exact (hi lo : Z) : Q :=
  (inject_Z (raw16 hi lo) * (1 # 16)
   - (if Z.testbit hi 7 then inject_Z 4096 else 0))%Q.

Definition all_bytes : list Z := Z.of_nat <$> seq 0 256.

Definition for_all_payloads (P : Z → Z → bool) : bool :=
  forallb (λ hi, forallb (P hi) all_bytes) all_bytes.

Definition is_exact (hi lo : Z) : bool :=
  match float_to_Q (celsius hi lo) with
  | Some q => Qeq_bool q (celsius_exact hi lo)
  | None => false
  end.

Definition in_range (hi lo : Z) : bool :=
  ((-2048 <=? celsius hi lo) && (celsius hi lo <=? 2047.9375))%float.

Definition fires_from_2048 (hi lo : Z) : bool :=
  Bool.eqb (Z.testbit hi 7) (2048 <=? float_of_int (raw16 hi lo) * 0.0625)%float.

(** A peripheral that answers every read with the same two bytes. *)
Definition fixed_payload (hi lo : byte) : I2C → transaction → nat → byte :=
  λ _ _ i, match i with O => hi | S _ => lo end.

(** The driver and the bus after [MCP9600(i2c)] with the default arguments. *)
Definition fresh_driver : MCP9600 :=
  {| buf := [0x05; 0x00; 0x00];
     i2c_device := {| device_address := _DEFAULT_ADDRESS |};
     type := "K" |}.

Definition fresh_bus : I2C := [Write _DEFAULT_ADDRESS [0x05; 0x00]].

Definition in_range_exact (hi lo : Z) : bool :=
  Qle_bool (inject_Z (-2048)) (celsius_exact hi lo)
  && Qle_bool (celsius_exact hi lo) (32767 # 16)
  && Qle_bool (inject_Z (raw16 hi lo) * (1 # 16)) (65535 # 16).

Inductive query : Type := Version | AmbientTemperature | Temperature | DeltaTemperature.

Inductive reading : Type := IntReading (z : Z) | FloatReading (f : float).

Definition query_register (q : query) : Z :=
  match q with
  | Version => _REGISTER_VERSION
  | AmbientTemperature => _REGISTER_COLD_JUNCTION
  | Temperature => _REGISTER_HOT_JUNCTION
  | DeltaTemperature => _REGISTER_DELTA_TEMP
  end.

Definition run_query (peripheral : I2C → transaction → nat → byte)
    (q : query) (self : MCP9600) : M (reading * MCP9600) :=
  match q with
  | Version => '(v, self) ← version peripheral self; mret (IntReading v, self)
  | AmbientTemperature =>
      '(v, self) ← ambient_temperature peripheral self; mret (FloatReading v, self)
  | Temperature =>
      '(v, self) ← temperature peripheral self; mret (FloatReading v, self)
  | DeltaTemperature =>
      '(v, self) ← delta_temperature peripheral self; mret (FloatReading v, self)
  end.

(** The properties read one after the other on the same object. *)
Fixpoint run_queries (peripheral : I2C → transaction → nat → byte)
    (qs : list query) (self : MCP9600) : M (list reading * MCP9600) :=
  match qs with
  | [] => mret ([], self)
  | q :: qs =>
      '(r, self) ← run_query peripheral q self;
      '(rs, self) ← run_queries peripheral qs self;
      mret (r :: rs, self)
  end.

Definition is_plain_write (t : transaction) : bool :=
  match t with Write _ _ => true | WriteThenReadinto _ _ _ => false end.

Definition is_write_then_read (t : transaction) : bool :=
  match t with Write _ _ => false | WriteThenReadinto _ _ _ => true end.

(** The register a transaction addresses: the first byte it sends. *)
Definition addressed_register (t : transaction) : option Z :=
  match t with
  | Write _ out => head out
  | WriteThenReadinto _ out _ => head out
  end.

Definition addresses (reg : Z) (t : transaction) : bool :=
  match addressed_register t with
  | Some r => r =? reg
  | None => false
  end.

Definition count_where (p : transaction → bool) (bus : I2C) : nat :=
  length (List.filter p bus).

(** A byte pair read as a two's-complement 16-bit number. *)
Definition signed16 (raw : Z) : Z := if raw <? 32768 then raw else raw - 65536.

(** The byte with a given value (0 outside the byte range). *)
Definition byte_of (z : Z) : byte :=
  if z <? 0 then x00 else default x00 (Byte.of_N (Z.to_N z)).

(** The big-endian payload that carries a 16-bit pattern. *)
Definition payload_of (raw : Z) : byte * byte :=
  (byte_of (raw / 256), byte_of (raw mod 256)).

(** The peripheral that answers every read with the pattern [raw]. *)
Definition answers (raw : Z) : I2C → transaction → nat → byte :=
  fixed_payload (payload_of raw).1 (payload_of raw).2.

(** The device a transaction is addressed to. *)
Definition transaction_address (t : transaction) : Z :=
  match t with
  | Write address _ => address
  | WriteThenReadinto address _ _ => address
  end.

(** What a query returns for a payload. *)
Definition reading_of (q : query) (hi lo : Z) : reading :=
  match q with
  | Version => IntReading (raw16 hi lo)
  | AmbientTemperature | Temperature | DeltaTemperature =>
      FloatReading (celsius hi lo)
  end.

(** The content of a [bytearray] of three items. *)
Definition is_bytearray3 (b : list Z) : Prop :=
  length b = 3%nat ∧ Forall (λ x, 0 ≤ x < 256) b.

Definition twos_complement_exact (hi lo : Z) : bool :=
  Qeq_bool (celsius_exact hi lo) (inject_Z (signed16 (raw16 hi lo)) * (1 # 16))
  && (celsius hi lo =? float_of_int (signed16 (raw16 hi lo)) * 0.0625)%float.

(** ** Reasoning about the monad *)

Lemma bind_inr {A B : Type} (m : M A) (f : A → M B) bus x bus' :
  m bus = (inr x, bus') → (m ≫= f) bus = f x bus'.
Proof. intros Hm. unfold mbind, M_bind. by rewrite Hm. Qed.

Lemma bind_inl {A B : Type} (m : M A) (f : A → M B) bus e bus' :
  m bus = (inl e, bus') → (m ≫= f) bus = (inl e, bus').
Proof. intros Hm. unfold mbind, M_bind. by rewrite Hm. Qed.

Lemma setitem_ok (b : list Z) (i : nat) (v : Z) bus :
  (i < length b)%nat → 0 ≤ v < 256 →
  setitem b i v bus = (inr (<[i := v]> b), bus).
Proof.
  intros Hi Hv. unfold setitem.
  rewrite decide_True by done. by rewrite decide_True by done.
Qed.

(** ** Construction *)

Lemma clamp_code (f : Z) : Z.min 7 (Z.max 0 f) = clamp f 0 7.
Proof. unfold clamp. lia. Qed.

Lemma clamp_range (f : Z) : 0 ≤ clamp f 0 7 ≤ 7.
Proof. unfold clamp. lia. Qed.

Lemma small_cases (c : Z) :
  0 ≤ c ≤ 7 → c = 0 ∨ c = 1 ∨ c = 2 ∨ c = 3 ∨ c = 4 ∨ c = 5 ∨ c = 6 ∨ c = 7.
Proof. lia. Qed.

(** Filter and type index occupy disjoint nibbles of one byte. *)
Lemma cfg_byte_nibbles (c i : Z) :
  0 ≤ c ≤ 7 → 0 ≤ i ≤ 7 →
  0 ≤ Z.lor c (Z.shiftl i 4) < 256
  ∧ Z.land (Z.lor c (Z.shiftl i 4)) 0xF = c
  ∧ Z.shiftr (Z.lor c (Z.shiftl i 4)) 4 = i.
Proof.
  intros Hc Hi.
  destruct (small_cases c Hc) as [->|[->|[->|[->|[->|[->|[->| ->]]]]]]];
    destruct (small_cases i Hi) as [->|[->|[->|[->|[->|[->|[->| ->]]]]]]];
    vm_compute; intuition congruence.
Qed.

Lemma types_lookup_lt (n : nat) (t : string) : types !! n = Some t → (n < 8)%nat.
Proof. intros H. apply lookup_lt_Some in H. exact H. Qed.

Lemma types_NoDup : NoDup types.
Proof. by apply (bool_decide_unpack _). Qed.

Lemma index_types (n : nat) (t : string) bus :
  types !! n = Some t → index types t bus = (inr (Z.of_nat n), bus).
Proof.
  intros H.
  do 8 (destruct n as [|n]; [injection H as <-; reflexivity|]).
  apply types_lookup_lt in H. lia.
Qed.

(** What a successful construction returns and sends. *)
Lemma init_valid (address : Z) (tctype : string) (tcfilter : Z) (bus : I2C) (n : nat) :
  types !! n = Some tctype →
  let cfg := Z.lor (clamp tcfilter 0 7) (Z.shiftl (Z.of_nat n) 4) in
  __init__ address tctype tcfilter bus
  = (inr {| buf := [_REGISTER_THERM_CFG; cfg; 0];
            i2c_device := {| device_address := address |};
            type := tctype |},
     bus ++ [Write address [_REGISTER_THERM_CFG; cfg]]).
Proof.
  intros Hn cfg.
  assert (Hin : tctype ∈ types) by (by eapply list_elem_of_lookup_2).
  pose proof (types_lookup_lt _ _ Hn) as Hlt.
  destruct (cfg_byte_nibbles (clamp tcfilter 0 7) (Z.of_nat n)) as (Hcfg & _ & _);
    [apply clamp_range | lia |].
  unfold __init__.
  rewrite (bind_inr _ _ bus {| device_address := address |} bus) by reflexivity.
  rewrite decide_False by (intros Hnot; by apply Hnot).
  rewrite clamp_code.
  rewrite (bind_inr _ _ bus (Z.of_nat n) bus) by (by apply index_types).
  rewrite (bind_inr _ _ bus [_REGISTER_THERM_CFG; 0; 0] bus) by reflexivity.
  rewrite (bind_inr _ _ bus [_REGISTER_THERM_CFG; cfg; 0] bus)
    by (rewrite setitem_ok; [reflexivity | simpl; lia | exact Hcfg]).
  reflexivity.
Qed.

(** An unknown type raises before anything is put on the bus. *)
Lemma init_invalid (address : Z) (tctype : string) (tcfilter : Z) (bus : I2C) :
  tctype ∉ types →
  __init__ address tctype tcfilter bus = (inl (InvalidConfiguration tctype), bus).
Proof.
  intros Hnot. unfold __init__.
  rewrite (bind_inr _ _ bus {| device_address := address |} bus) by reflexivity.
  by rewrite decide_True by done.
Qed.

(** ** Register reads *)

Lemma length_3_inv (b : list Z) :
  length b = 3%nat → ∃ b0 b1 b2, b = [b0; b1; b2].
Proof.
  destruct b as [|b0 [|b1 [|b2 [|b3 b]]]]; intros H; try discriminate H.
  by exists b0, b1, b2.
Qed.

Lemma byte_val_range (b : byte) : 0 ≤ byte_val b < 256.
Proof. unfold byte_val. pose proof (Byte.to_N_bounded b). lia. Qed.

(** Bit 7 of a byte, as the driver tests it. *)
Lemma land_0x80_testbit (b : byte) :
  (Z.land (byte_val b) 0x80 =? 0) = negb (Z.testbit (byte_val b) 7).
Proof. by destruct b. Qed.

Section Reads.

Variable peripheral : I2C → transaction → nat → byte.

Lemma read_register_spec (self : MCP9600) (reg : Z) (count : nat) (bus : I2C) :
  length (buf self) = 3%nat → 0 ≤ reg < 256 →
  let t := read_transaction self reg count in
  let hi := byte_val (peripheral bus t 0) in
  let lo := byte_val (peripheral bus t 1) in
  _read_register peripheral self reg count bus
  = (inr ([reg; hi; lo], after_read self reg hi lo), bus ++ [t]).
Proof.
  intros Hlen Hreg.
  destruct (length_3_inv _ Hlen) as (b0 & b1 & b2 & Hbuf).
  unfold read_transaction, _read_register. rewrite Hbuf. cbn zeta.
  rewrite (bind_inr _ _ bus [reg; b1; b2] bus)
    by (rewrite setitem_ok; [reflexivity | simpl; lia | exact Hreg]).
  unfold write_then_readinto, slice, mbind, M_bind, mret, M_ret, after_read.
  cbn [default length drop take Nat.sub Nat.add seq fmap list_fmap app].
  by rewrite Nat.sub_0_r.
Qed.

Lemma version_spec (self : MCP9600) (bus : I2C) :
  length (buf self) = 3%nat →
  let t := read_transaction self _REGISTER_VERSION 2 in
  let hi := byte_val (peripheral bus t 0) in
  let lo := byte_val (peripheral bus t 1) in
  version peripheral self bus
  = (inr (raw16 hi lo, after_read self _REGISTER_VERSION hi lo), bus ++ [t]).
Proof.
  intros Hlen t hi lo. unfold version.
  assert (Hreg : 0 ≤ _REGISTER_VERSION < 256) by done.
  rewrite (bind_inr _ _ bus _ _ (read_register_spec self _ 2 bus Hlen Hreg)).
  reflexivity.
Qed.

Lemma read_temperature_spec (r : temperature_register) (self : MCP9600) (bus : I2C) :
  length (buf self) = 3%nat →
  let t := read_transaction self (register_address r) 2 in
  let hi := peripheral bus t 0 in
  let lo := peripheral bus t 1 in
  read_temperature peripheral r self bus
  = (inr (celsius (byte_val hi) (byte_val lo),
          after_read self (register_address r) (byte_val hi) (byte_val lo)),
     bus ++ [t]).
Proof.
  intros Hlen t hi lo.
  assert (Hreg : 0 ≤ register_address r < 256) by (by destruct r).
  pose proof (read_register_spec self _ 2 bus Hlen Hreg) as Hrd.
  subst t hi lo.
  destruct r; cbn [register_address read_temperature] in *;
    [unfold temperature | unfold delta_temperature | unfold ambient_temperature];
    rewrite (bind_inr _ _ bus _ _ Hrd);
    unfold unpack_xH, getitem, mbind, M_bind, mret, M_ret, celsius, raw16;
    cbn [lookup list_lookup];
    rewrite land_0x80_testbit;
    by destruct (Z.testbit _ 7).
Qed.

End Reads.

(** ** The decoded value as an exact rational

    Every float the driver computes is a finite binary64 number; read back
    through its sign, mantissa and exponent it is a rational, which is
    compared with the value of the formula over the rationals.  The payloads
    are finitely many, so these facts are checked on all of them. *)

Lemma byte_val_in_all_bytes (b : byte) : In (byte_val b) all_bytes.
Proof.
  unfold all_bytes. apply in_map_iff.
  exists (N.to_nat (Byte.to_N b)). split.
  - unfold byte_val. lia.
  - apply in_seq. pose proof (Byte.to_N_bounded b). lia.
Qed.

Lemma for_all_payloads_spec (P : Z → Z → bool) :
  for_all_payloads P = true →
  ∀ hi lo : byte, P (byte_val hi) (byte_val lo) = true.
Proof.
  unfold for_all_payloads. intros H hi lo.
  rewrite List.forallb_forall in H.
  specialize (H _ (byte_val_in_all_bytes hi)).
  rewrite List.forallb_forall in H.
  exact (H _ (byte_val_in_all_bytes lo)).
Qed.

Lemma celsius_is_exact (hi lo : byte) :
  ∃ q, float_to_Q (celsius (byte_val hi) (byte_val lo)) = Some q
       ∧ (q == celsius_exact (byte_val hi) (byte_val lo))%Q.
Proof.
  assert (H : for_all_payloads is_exact = true) by (vm_compute; reflexivity).
  pose proof (for_all_payloads_spec _ H hi lo) as Hx. unfold is_exact in Hx.
  destruct (float_to_Q _) as [q|]; [|discriminate Hx].
  exists q. split; [reflexivity|]. by apply Qeq_bool_iff.
Qed.

Lemma celsius_in_range (hi lo : byte) :
  (-2048 <=? celsius (byte_val hi) (byte_val lo))%float = true
  ∧ (celsius (byte_val hi) (byte_val lo) <=? 2047.9375)%float = true.
Proof.
  assert (H : for_all_payloads in_range = true) by (vm_compute; reflexivity).
  pose proof (for_all_payloads_spec _ H hi lo) as Hx. unfold in_range in Hx.
  by apply andb_true_iff in Hx.
Qed.

Lemma correction_fires_from_2048 (hi lo : byte) :
  Z.testbit (byte_val hi) 7
  = (2048 <=? float_of_int (raw16 (byte_val hi) (byte_val lo)) * 0.0625)%float.
Proof.
  assert (H : for_all_payloads fires_from_2048 = true) by (vm_compute; reflexivity).
  pose proof (for_all_payloads_spec _ H hi lo) as Hx. unfold fires_from_2048 in Hx.
  by apply Bool.eqb_prop in Hx.
Qed.

(** ** Construction: the configuration byte and the validation *)

Lemma type_index_table_positions :
  type_index_table = imap (λ i t, (t, Z.of_nat i)) types.
Proof. reflexivity. Qed.

Lemma type_index_table_lookup (t : string) (i : Z) :
  (t, i) ∈ type_index_table → ∃ n, types !! n = Some t ∧ i = Z.of_nat n.
Proof.
  rewrite type_index_table_positions. intros H.
  apply elem_of_lookup_imap in H as (n & t' & Heq & Hn).
  injection Heq as -> ->. by exists n.
Qed.

(** C3. For every thermocouple type of the table K=0, J=1, T=2, N=3, S=4,
    E=5, B=6, R=7 (the positions in the ordered list [types]) and every
    integer filter level, construction succeeds and sends one write
    transaction: register 0x05 followed by the single configuration byte,
    whose low nibble is the clamped filter and whose high nibble is the type
    index; type "T" with filter 3 gives 0x23. *)
Theorem init_writes_config_byte
    (address : Z) (tctype : string) (tcfilter : Z) (bus : I2C) (i : Z) :
  (tctype, i) ∈ type_index_table →
  let cfg := Z.lor (clamp tcfilter 0 7) (Z.shiftl i 4) in
  (∃ self, __init__ address tctype tcfilter bus
           = (inr self, bus ++ [Write address [0x05; cfg]]))
  ∧ Z.land cfg 0xF = clamp tcfilter 0 7
  ∧ Z.shiftr cfg 4 = i
  ∧ type_index_table.*1 = types
  ∧ snd (__init__ address "T" 3 bus) = bus ++ [Write address [0x05; 0x23]].
Proof.
  intros Hin cfg.
  destruct (type_index_table_lookup _ _ Hin) as (n & Hn & ->).
  pose proof (types_lookup_lt _ _ Hn) as Hlt.
  destruct (cfg_byte_nibbles (clamp tcfilter 0 7) (Z.of_nat n)) as (_ & Hlow & Hhigh);
    [apply clamp_range | lia |].
  split; [|split; [exact Hlow | split; [exact Hhigh | split; [reflexivity|]]]].
  - eexists. apply (init_valid address tctype tcfilter bus n Hn).
  - by rewrite (init_valid address "T" 3 bus 2).
Qed.

Lemma init_writes_config_byte_witness :
  (∃ self, __init__ 0x67 "T" 3 [] = (inr self, [] ++ [Write 0x67 [0x05; 0x23]]))
  ∧ Z.land 0x23 0xF = 3 ∧ Z.shiftr 0x23 4 = 2.
Proof.
  destruct (init_writes_config_byte 0x67 "T" 3 [] 2) as (H1 & H2 & H3 & _).
  - unfold type_index_table. do 2 apply list_elem_of_further. apply list_elem_of_here.
  - exact (conj H1 (conj H2 H3)).
Defined.

(** C5. Construction fails with the invalid-configuration error exactly when
    the requested type is not one of the eight recognised symbols, whatever
    the filter level; for a recognised type no filter level makes it fail. *)
Theorem init_fails_iff_unknown_type
    (address : Z) (tctype : string) (tcfilter : Z) (bus : I2C) :
  ((∃ bus', __init__ address tctype tcfilter bus
            = (inl (InvalidConfiguration tctype), bus'))
   ↔ tctype ∉ types)
  ∧ ((∃ e bus', __init__ address tctype tcfilter bus = (inl e, bus'))
     ↔ tctype ∉ types)
  ∧ ((∃ self bus', __init__ address tctype tcfilter bus = (inr self, bus'))
     ↔ tctype ∈ types).
Proof.
  destruct (decide (tctype ∈ types)) as [Hin|Hnot].
  - destruct (list_elem_of_lookup_1 _ _ Hin) as (n & Hn).
    pose proof (init_valid address tctype tcfilter bus n Hn) as Hok.
    cbn zeta in Hok.
    split; [|split]; split.
    + intros (bus' & H). rewrite Hok in H. discriminate H.
    + intros Hnot. by destruct Hnot.
    + intros (e & bus' & H). rewrite Hok in H. discriminate H.
    + intros Hnot. by destruct Hnot.
    + intros _. exact Hin.
    + intros _. eauto.
  - pose proof (init_invalid address tctype tcfilter bus Hnot) as Herr.
    split; [|split]; split.
    + intros _. exact Hnot.
    + intros _. eauto.
    + intros _. exact Hnot.
    + intros _. eauto.
    + intros (self & bus' & H). rewrite Herr in H. discriminate H.
    + intros Hin. by destruct Hnot.
Qed.

(** C6. For every integer filter level between -100 and 100 and every
    recognised type, construction does not raise, and the low nibble of the
    configuration byte it sends is max(0, min(7, f)). *)
Theorem init_clamps_filter
    (address : Z) (tctype : string) (f : Z) (bus : I2C) :
  tctype ∈ types → -100 ≤ f ≤ 100 →
  ∃ self cfg,
    __init__ address tctype f bus = (inr self, bus ++ [Write address [0x05; cfg]])
    ∧ Z.land cfg 0xF = Z.max 0 (Z.min 7 f).
Proof.
  intros Hin _.
  destruct (list_elem_of_lookup_1 _ _ Hin) as (n & Hn).
  pose proof (types_lookup_lt _ _ Hn) as Hlt.
  destruct (cfg_byte_nibbles (clamp f 0 7) (Z.of_nat n)) as (_ & Hlow & _);
    [apply clamp_range | lia |].
  eexists _, _. split.
  - apply (init_valid address tctype f bus n Hn).
  - exact Hlow.
Qed.

Lemma init_clamps_filter_witness :
  ∃ self cfg,
    __init__ 0x67 "R" (-100) [] = (inr self, [] ++ [Write 0x67 [0x05; cfg]])
    ∧ Z.land cfg 0xF = Z.max 0 (Z.min 7 (-100)).
Proof.
  apply (init_clamps_filter 0x67 "R" (-100) []).
  - unfold types. do 7 apply list_elem_of_further. apply list_elem_of_here.
  - lia.
Defined.

(** C9. When the requested type is not recognised the constructor raises
    with the bus exactly as it found it: no configuration write and no other
    transaction has been requested of the device. *)
Theorem init_invalid_leaves_bus_untouched
    (address : Z) (tctype : string) (tcfilter : Z) (bus : I2C) :
  tctype ∉ types →
  __init__ address tctype tcfilter bus = (inl (InvalidConfiguration tctype), bus)
  ∧ snd (__init__ address tctype tcfilter bus) = bus.
Proof.
  intros Hnot.
  pose proof (init_invalid address tctype tcfilter bus Hnot) as Herr.
  split; [exact Herr|]. by rewrite Herr.
Qed.

Lemma init_invalid_leaves_bus_untouched_witness :
  __init__ 0x67 "X" 3 [] = (inl (InvalidConfiguration "X"), [])
  ∧ snd (__init__ 0x67 "X" 3 []) = [].
Proof.
  apply (init_invalid_leaves_bus_untouched 0x67 "X" 3 []).
  unfold types. intros H.
  repeat (apply elem_of_cons in H as [H|H]; [discriminate H|]).
  by apply elem_of_nil in H.
Defined.

(** ** Decoding of the temperature registers *)

Lemma fresh_driver_constructed :
  __init__ _DEFAULT_ADDRESS "K" 0 [] = (inr fresh_driver, fresh_bus).
Proof. exact (init_valid _DEFAULT_ADDRESS "K" 0 [] 0 eq_refl). Qed.

Lemma land_shiftl8_low (hi lo : Z) :
  0 ≤ lo < 256 → Z.land (Z.shiftl hi 8) lo = 0.
Proof.
  intros Hlo. apply Z.bits_inj'. intros n Hn.
  rewrite Z.land_spec, Z.bits_0.
  destruct (Z_lt_le_dec n 8) as [Hlt|Hge].
  - rewrite Z.shiftl_spec_low by exact Hlt. reflexivity.
  - destruct (Z.eq_dec lo 0) as [->|Hnz].
    + rewrite Z.bits_0. apply andb_false_r.
    + rewrite (Z.bits_above_log2 lo n); [apply andb_false_r | lia |].
      assert (Z.log2 lo < 8) by (apply Z.log2_lt_pow2; lia). lia.
Qed.

(** The pair read as an unsigned big-endian number. *)
Lemma raw16_big_endian (hi lo : Z) :
  0 ≤ lo < 256 → raw16 hi lo = 256 * hi + lo.
Proof.
  intros Hlo. unfold raw16.
  rewrite <- Z.lxor_lor by (by apply land_shiftl8_low).
  rewrite <- Z.add_nocarry_lxor by (by apply land_shiftl8_low).
  rewrite Z.shiftl_mul_pow2 by lia. lia.
Qed.

(** Bit 15 of the pair is bit 7 of the first payload byte. *)
Lemma raw16_bit15 (hi lo : Z) :
  0 ≤ lo < 256 → Z.testbit (raw16 hi lo) 15 = Z.testbit hi 7.
Proof.
  intros Hlo. unfold raw16.
  rewrite Z.lor_spec, Z.shiftl_spec by lia.
  replace (Z.testbit lo 15) with false; [by rewrite orb_false_r|].
  symmetry. destruct (Z.eq_dec lo 0) as [->|Hnz]; [apply Z.bits_0|].
  apply Z.bits_above_log2; [lia|].
  assert (Z.log2 lo < 8) by (apply Z.log2_lt_pow2; lia). lia.
Qed.

Lemma raw16_range (hi lo : byte) :
  0 ≤ raw16 (byte_val hi) (byte_val lo) < 65536.
Proof.
  pose proof (byte_val_range hi). pose proof (byte_val_range lo).
  rewrite raw16_big_endian by lia. lia.
Qed.

(** C1, as amended: the flag that triggers the correction is bit 7 of the
    first payload byte [hi], not of [lo].  For every payload [hi, lo] a read
    of the hot-junction, delta or cold-junction register returns
    ((hi<<8)|lo) * 0.0625 when bit 7 of [hi] is clear and
    ((hi<<8)|lo) * 0.0625 - 4096 when it is set; bytes [0xFF, 0x00] decode
    to -16.0. *)
Theorem temperature_decodes_by_hi_bit7
    (peripheral : I2C → transaction → nat → byte)
    (r : temperature_register) (self : MCP9600) (bus : I2C) (hi lo : byte) :
  length (buf self) = 3%nat →
  let t := read_transaction self (register_address r) 2 in
  peripheral bus t 0%nat = hi → peripheral bus t 1%nat = lo →
  let raw := Z.lor (Z.shiftl (byte_val hi) 8) (byte_val lo) in
  (Z.testbit (byte_val hi) 7 = false →
     ∃ self', read_temperature peripheral r self bus
              = (inr ((float_of_int raw * 0.0625)%float, self'), bus ++ [t]))
  ∧ (Z.testbit (byte_val hi) 7 = true →
     ∃ self', read_temperature peripheral r self bus
              = (inr ((float_of_int raw * 0.0625 - 4096)%float, self'), bus ++ [t]))
  ∧ fst (temperature (fixed_payload xff x00) fresh_driver fresh_bus)
    = inr ((-16)%float, after_read fresh_driver 0x00 0xFF 0x00).
Proof.
  intros Hlen t Hhi Hlo raw.
  pose proof (read_temperature_spec peripheral r self bus Hlen) as Hrd.
  cbn zeta in Hrd. fold t in Hrd. rewrite Hhi, Hlo in Hrd.
  unfold celsius, raw16 in Hrd. fold raw in Hrd.
  split; [|split].
  - intros Hbit. rewrite Hbit in Hrd. eauto.
  - intros Hbit. rewrite Hbit in Hrd. eauto.
  - exact (f_equal fst
      (read_temperature_spec (fixed_payload xff x00) HotJunction
         fresh_driver fresh_bus eq_refl)).
Qed.

Lemma temperature_decodes_by_hi_bit7_witness :
  ∃ self', ambient_temperature (fixed_payload x01 x90) fresh_driver fresh_bus
           = (inr (25%float, self'),
              fresh_bus ++ [WriteThenReadinto 0x67 [0x02; 0x00] 2]).
Proof.
  destruct (temperature_decodes_by_hi_bit7 (fixed_payload x01 x90) ColdJunction
              fresh_driver fresh_bus x01 x90 eq_refl eq_refl eq_refl)
    as (Hclear & _ & _).
  exact (Hclear eq_refl).
Defined.

(** C1 as stated fails: with payload [0xFF, 0x00] bit 7 of [lo] is clear,
    yet the hot-junction read returns -16.0 and not 65280 * 0.0625 = 4080.0;
    with payload [0x01, 0x90] bit 7 of [lo] is set, yet 25.0 is returned
    with nothing subtracted. *)
Lemma lo_bit7_is_not_the_sign_flag :
  __init__ _DEFAULT_ADDRESS "K" 0 [] = (inr fresh_driver, fresh_bus)
  ∧ Z.testbit (byte_val x00) 7 = false
  ∧ fst (temperature (fixed_payload xff x00) fresh_driver fresh_bus)
    = inr ((-16)%float, after_read fresh_driver 0x00 0xFF 0x00)
  ∧ (float_of_int (Z.lor (Z.shiftl 0xFF 8) 0x00) * 0.0625)%float = 4080%float
  ∧ (-16 =? 4080)%float = false
  ∧ Z.testbit (byte_val x90) 7 = true
  ∧ fst (temperature (fixed_payload x01 x90) fresh_driver fresh_bus)
    = inr (25%float, after_read fresh_driver 0x00 0x01 0x90)
  ∧ (25 =? float_of_int (Z.lor (Z.shiftl 0x01 8) 0x90) * 0.0625 - 4096)%float = false.
Proof.
  split; [exact fresh_driver_constructed|].
  repeat split; vm_compute; reflexivity.
Qed.

(** C2. For each of the three temperature reads the sign flag is bit 15 of
    the big-endian byte pair, that is bit 7 of the high byte: the read
    returns the unsigned value times 0.0625, and 4096 is subtracted after
    the scaling exactly when that bit is set.  The float returned is exactly
    the rational the formula denotes.  Bytes [0x80, 0x80] give
    2056.0 - 4096 = -2040.0. *)
Theorem temperature_sign_is_bit15
    (peripheral : I2C → transaction → nat → byte)
    (r : temperature_register) (self : MCP9600) (bus : I2C) (hi lo : byte) :
  length (buf self) = 3%nat →
  let t := read_transaction self (register_address r) 2 in
  peripheral bus t 0%nat = hi → peripheral bus t 1%nat = lo →
  let unsigned := 256 * byte_val hi + byte_val lo in
  let scaled := (float_of_int unsigned * 0.0625)%float in
  let value := if Z.testbit unsigned 15 then (scaled - 4096)%float else scaled in
  Z.testbit unsigned 15 = Z.testbit (byte_val hi) 7
  ∧ (∃ self', read_temperature peripheral r self bus
              = (inr (value, self'), bus ++ [t]))
  ∧ (∃ q, float_to_Q value = Some q
          ∧ (q == inject_Z unsigned * (1 # 16)
                  - (if Z.testbit unsigned 15 then inject_Z 4096 else 0))%Q)
  ∧ fst (read_temperature (fixed_payload x80 x80) r fresh_driver fresh_bus)
    = inr ((2056 - 4096)%float, after_read fresh_driver (register_address r) 0x80 0x80)
  ∧ (2056 - 4096)%float = (-2040)%float.
Proof.
  intros Hlen t Hhi Hlo unsigned scaled value.
  pose proof (byte_val_range lo) as Hrange.
  pose proof (read_temperature_spec peripheral r self bus Hlen) as Hrd.
  cbn zeta in Hrd. fold t in Hrd. rewrite Hhi, Hlo in Hrd.
  pose proof (raw16_big_endian (byte_val hi) (byte_val lo) Hrange) as Hraw.
  pose proof (raw16_bit15 (byte_val hi) (byte_val lo) Hrange) as Hbit.
  fold unsigned in Hraw. rewrite Hraw in Hbit.
  assert (Hval : celsius (byte_val hi) (byte_val lo) = value).
  { unfold celsius, value, scaled. by rewrite Hbit, Hraw. }
  split; [exact Hbit|]. split; [rewrite Hval in Hrd; eauto|]. split.
  - destruct (celsius_is_exact hi lo) as (q & Hq & Heq).
    exists q. rewrite <- Hval. split; [exact Hq|].
    unfold celsius_exact in Heq. by rewrite Hraw, <- Hbit in Heq.
  - split; [|reflexivity].
    rewrite (read_temperature_spec _ r fresh_driver fresh_bus eq_refl).
    by destruct r.
Qed.

Lemma temperature_sign_is_bit15_witness :
  ∃ self', delta_temperature (fixed_payload x80 x80) fresh_driver fresh_bus
           = (inr ((-2040)%float, self'),
              fresh_bus ++ [WriteThenReadinto 0x67 [0x01; 0x00] 2]).
Proof.
  destruct (temperature_sign_is_bit15 (fixed_payload x80 x80) DeltaTemp
              fresh_driver fresh_bus x80 x80 eq_refl eq_refl eq_refl)
    as (_ & Hrun & _).
  exact Hrun.
Defined.

Lemma celsius_exact_in_range (hi lo : byte) :
  (inject_Z (-2048) <= celsius_exact (byte_val hi) (byte_val lo))%Q
  ∧ (celsius_exact (byte_val hi) (byte_val lo) <= 32767 # 16)%Q
  ∧ (inject_Z (raw16 (byte_val hi) (byte_val lo)) * (1 # 16) <= 65535 # 16)%Q.
Proof.
  assert (H : for_all_payloads in_range_exact = true) by (vm_compute; reflexivity).
  pose proof (for_all_payloads_spec _ H hi lo) as Hx. unfold in_range_exact in Hx.
  apply andb_true_iff in Hx as [Hx H3]. apply andb_true_iff in Hx as [H1 H2].
  split; [|split]; apply Qle_bool_imp_le; assumption.
Qed.

(** C10. Whatever two bytes the chip answers, the value returned by the
    hot-junction, cold-junction or delta read lies in [-2048.0, 2047.9375]
    (2047.9375 = 32767/16), both as a float comparison and as an exact
    rational; the scaled unsigned value is at most 4095.9375 = 65535/16, and
    the correction is applied exactly when the scaled value is at least
    2048. *)
Theorem temperature_in_range
    (peripheral : I2C → transaction → nat → byte)
    (r : temperature_register) (self : MCP9600) (bus : I2C) :
  length (buf self) = 3%nat →
  ∃ (value : float) (self' : MCP9600) (bus' : I2C) (hi lo : byte) (q : Q),
    read_temperature peripheral r self bus = (inr (value, self'), bus')
    ∧ (-2048 <=? value)%float = true
    ∧ (value <=? 2047.9375)%float = true
    ∧ float_to_Q value = Some q
    ∧ (inject_Z (-2048) <= q)%Q ∧ (q <= 32767 # 16)%Q
    ∧ buf self' = [register_address r; byte_val hi; byte_val lo]
    ∧ (let scaled := (float_of_int (raw16 (byte_val hi) (byte_val lo)) * 0.0625)%float in
       (scaled <=? 4095.9375)%float = true
       ∧ value = (if (2048 <=? scaled)%float then scaled - 4096 else scaled)%float).
Proof.
  intros Hlen.
  pose proof (read_temperature_spec peripheral r self bus Hlen) as Hrd.
  cbn zeta in Hrd.
  set (t := read_transaction self (register_address r) 2) in Hrd.
  set (hi := peripheral bus t 0%nat) in Hrd.
  set (lo := peripheral bus t 1%nat) in Hrd.
  destruct (celsius_is_exact hi lo) as (q & Hq & Heq).
  destruct (celsius_in_range hi lo) as (Hlow & Hhigh).
  destruct (celsius_exact_in_range hi lo) as (Hqlow & Hqhigh & _).
  exists (celsius (byte_val hi) (byte_val lo)),
    (after_read self (register_address r) (byte_val hi) (byte_val lo)),
    (bus ++ [t]), hi, lo, q.
  split; [exact Hrd|].
  split; [exact Hlow|]. split; [exact Hhigh|]. split; [exact Hq|].
  split; [by rewrite Heq|]. split; [by rewrite Heq|]. split; [reflexivity|].
  cbn zeta. split.
  - assert (H : for_all_payloads
                  (λ h l, (float_of_int (raw16 h l) * 0.0625 <=? 4095.9375)%float)
                = true) by (vm_compute; reflexivity).
    exact (for_all_payloads_spec _ H hi lo).
  - unfold celsius. by rewrite (correction_fires_from_2048 hi lo).
Qed.

Lemma temperature_in_range_witness :
  ∃ (value : float) (self' : MCP9600) (bus' : I2C) (hi lo : byte) (q : Q),
    read_temperature (fixed_payload x80 x00) HotJunction fresh_driver fresh_bus
    = (inr (value, self'), bus')
    ∧ (-2048 <=? value)%float = true
    ∧ (value <=? 2047.9375)%float = true
    ∧ float_to_Q value = Some q
    ∧ (inject_Z (-2048) <= q)%Q ∧ (q <= 32767 # 16)%Q
    ∧ buf self' = [register_address HotJunction; byte_val hi; byte_val lo]
    ∧ (let scaled := (float_of_int (raw16 (byte_val hi) (byte_val lo)) * 0.0625)%float in
       (scaled <=? 4095.9375)%float = true
       ∧ value = (if (2048 <=? scaled)%float then scaled - 4096 else scaled)%float).
Proof.
  exact (temperature_in_range (fixed_payload x80 x00) HotJunction
           fresh_driver fresh_bus eq_refl).
Defined.

(** Both ends of the interval are reached. *)
Lemma temperature_range_is_tight :
  fst (temperature (fixed_payload x80 x00) fresh_driver fresh_bus)
  = inr ((-2048)%float, after_read fresh_driver 0x00 0x80 0x00)
  ∧ fst (temperature (fixed_payload x7f xff) fresh_driver fresh_bus)
    = inr (2047.9375%float, after_read fresh_driver 0x00 0x7F 0xFF).
Proof. split; vm_compute; reflexivity. Qed.

(** ** The version register *)

(** C7. [version] requests one read of register 0x20 that clocks in two
    bytes, and returns the unsigned big-endian 16-bit number they form; the
    leading byte of the three-byte buffer (the register address) is skipped.
    A buffer [0x00, 0x01, 0x20] unpacks to 288. *)
Theorem version_is_big_endian_payload
    (peripheral : I2C → transaction → nat → byte)
    (self : MCP9600) (bus : I2C) (hi lo : byte) :
  length (buf self) = 3%nat →
  let t := read_transaction self _REGISTER_VERSION 2 in
  peripheral bus t 0%nat = hi → peripheral bus t 1%nat = lo →
  (∃ rest, t = WriteThenReadinto (device_address (i2c_device self)) (0x20 :: rest) 2)
  ∧ (∃ self', version peripheral self bus
              = (inr (256 * byte_val hi + byte_val lo, self'), bus ++ [t])
              ∧ buf self' = [0x20; byte_val hi; byte_val lo])
  ∧ 0 ≤ 256 * byte_val hi + byte_val lo < 65536
  ∧ unpack_xH [0x00; 0x01; 0x20] bus = (inr 288, bus).
Proof.
  intros Hlen t Hhi Hlo.
  pose proof (byte_val_range hi) as Hrhi. pose proof (byte_val_range lo) as Hrlo.
  pose proof (version_spec peripheral self bus Hlen) as Hv.
  cbn zeta in Hv. fold t in Hv. rewrite Hhi, Hlo in Hv.
  rewrite raw16_big_endian in Hv by exact Hrlo.
  split; [|split; [|split; [lia | reflexivity]]].
  - destruct (length_3_inv _ Hlen) as (b0 & b1 & b2 & Hbuf).
    exists [b1]. unfold t, read_transaction. by rewrite Hbuf.
  - eexists. split; [exact Hv | reflexivity].
Qed.

Lemma version_is_big_endian_payload_witness :
  ∃ self', version (fixed_payload x01 x20) fresh_driver fresh_bus
           = (inr (288, self'),
              fresh_bus ++ [WriteThenReadinto 0x67 [0x20; 0x00] 2])
           ∧ buf self' = [0x20; 0x01; 0x20].
Proof.
  destruct (version_is_big_endian_payload (fixed_payload x01 x20)
              fresh_driver fresh_bus x01 x20 eq_refl eq_refl eq_refl)
    as (_ & Hrun & _).
  exact Hrun.
Defined.

(** ** The register read primitive *)

(** The two phases of a read, for any [count]: the write phase sends the
    first [count] bytes of the buffer, the read phase always fills the two
    bytes after offset 0. *)
Lemma read_register_phases
    (peripheral : I2C → transaction → nat → byte)
    (self : MCP9600) (reg : Z) (count : nat) (bus : I2C) :
  length (buf self) = 3%nat → 0 ≤ reg < 256 →
  ∃ out data self',
    _read_register peripheral self reg count bus
    = (inr (data, self'),
       bus ++ [WriteThenReadinto (device_address (i2c_device self)) out 2])
    ∧ length out = Nat.min count 3
    ∧ data !! 0%nat = Some reg
    ∧ length data = 3%nat.
Proof.
  intros Hlen Hreg.
  pose proof (read_register_spec peripheral self reg count bus Hlen Hreg) as Hrd.
  cbn zeta in Hrd. unfold read_transaction in Hrd. rewrite Hlen in Hrd.
  eexists _, _, _. split; [exact Hrd|].
  split; [|split; reflexivity].
  rewrite length_take, length_insert, Hlen. reflexivity.
Qed.

(** C4, evaluated on the code.  A version read on a freshly constructed
    driver ([count] = 2, as in every property) puts a write phase of two
    bytes on the bus, the register address followed by the stale byte at
    offset 1, where the claim has exactly one byte; with the default
    [count] = 1 the write phase is one byte but the read phase still stores
    two bytes, not [count].  In both cases offset 0 keeps the register
    address and the bytes read start at offset 1. *)
Theorem read_register_sends_count_bytes :
  _read_register (fixed_payload x01 x20) fresh_driver _REGISTER_VERSION 2 fresh_bus
  = (inr ([0x20; 0x01; 0x20], after_read fresh_driver 0x20 0x01 0x20),
     fresh_bus ++ [WriteThenReadinto 0x67 [0x20; 0x00] 2])
  ∧ _read_register (fixed_payload x01 x20) fresh_driver _REGISTER_VERSION 1 fresh_bus
    = (inr ([0x20; 0x01; 0x20], after_read fresh_driver 0x20 0x01 0x20),
       fresh_bus ++ [WriteThenReadinto 0x67 [0x20] 2])
  ∧ length [0x20; 0x00] ≠ 1%nat.
Proof.
  assert (Hreg : 0 ≤ _REGISTER_VERSION < 256) by (unfold _REGISTER_VERSION; lia).
  split; [|split].
  - exact (read_register_spec (fixed_payload x01 x20) fresh_driver
             _REGISTER_VERSION 2 fresh_bus eq_refl Hreg).
  - exact (read_register_spec (fixed_payload x01 x20) fresh_driver
             _REGISTER_VERSION 1 fresh_bus eq_refl Hreg).
  - discriminate.
Qed.

(** ** Bus traffic of a driver's life *)

Lemma count_where_app (p : transaction → bool) (l1 l2 : I2C) :
  count_where p (l1 ++ l2) = (count_where p l1 + count_where p l2)%nat.
Proof. unfold count_where. by rewrite List.filter_app, length_app. Qed.

Lemma count_where_none (p : transaction → bool) (l : I2C) :
  Forall (λ t, p t = false) l → count_where p l = 0%nat.
Proof.
  unfold count_where. induction 1 as [|t l Ht _ IH]; [reflexivity|].
  cbn [List.filter]. by rewrite Ht.
Qed.

Section Traffic.

Variable peripheral : I2C → transaction → nat → byte.

(** One query: one combined transaction, addressed at the query's register,
    and the buffer keeps its three bytes. *)
Lemma run_query_spec (q : query) (self : MCP9600) (bus : I2C) :
  length (buf self) = 3%nat →
  ∃ r self' out,
    run_query peripheral q self bus
    = (inr (r, self'),
       bus ++ [WriteThenReadinto (device_address (i2c_device self))
                 (query_register q :: out) 2])
    ∧ length (buf self') = 3%nat
    ∧ i2c_device self' = i2c_device self.
Proof.
  intros Hlen.
  destruct (length_3_inv _ Hlen) as (b0 & b1 & b2 & Hbuf).
  destruct q; unfold run_query.
  - pose proof (version_spec peripheral self bus Hlen) as H. cbn zeta in H.
    rewrite (bind_inr _ _ bus _ _ H).
    unfold read_transaction. rewrite Hbuf. by eexists _, _, [b1].
  - pose proof (read_temperature_spec peripheral ColdJunction self bus Hlen) as H.
    cbn zeta in H. cbn [read_temperature] in H.
    rewrite (bind_inr _ _ bus _ _ H).
    unfold read_transaction. rewrite Hbuf. by eexists _, _, [b1].
  - pose proof (read_temperature_spec peripheral HotJunction self bus Hlen) as H.
    cbn zeta in H. cbn [read_temperature] in H.
    rewrite (bind_inr _ _ bus _ _ H).
    unfold read_transaction. rewrite Hbuf. by eexists _, _, [b1].
  - pose proof (read_temperature_spec peripheral DeltaTemp self bus Hlen) as H.
    cbn zeta in H. cbn [read_temperature] in H.
    rewrite (bind_inr _ _ bus _ _ H).
    unfold read_transaction. rewrite Hbuf. by eexists _, _, [b1].
Qed.

Lemma query_register_not_cfg (q : query) (address : Z) (out : list Z) (n : nat) :
  addresses _REGISTER_THERM_CFG (WriteThenReadinto address (query_register q :: out) n)
  = false.
Proof. by destruct q. Qed.

(** Any sequence of queries: as many combined transactions as queries, none
    of them a plain write and none addressed at the configuration register. *)
Lemma run_queries_spec (qs : list query) (self : MCP9600) (bus : I2C) :
  length (buf self) = 3%nat →
  ∃ rs self' issued,
    run_queries peripheral qs self bus = (inr (rs, self'), bus ++ issued)
    ∧ length rs = length qs
    ∧ length issued = length qs
    ∧ Forall (λ t, is_write_then_read t = true) issued
    ∧ Forall (λ t, is_plain_write t = false) issued
    ∧ Forall (λ t, addresses _REGISTER_THERM_CFG t = false) issued.
Proof.
  revert self bus. induction qs as [|q qs IH]; intros self bus Hlen.
  - exists [], self, []. cbn [run_queries]. unfold mret, M_ret.
    rewrite app_nil_r. repeat split; constructor.
  - destruct (run_query_spec q self bus Hlen) as (r & self1 & out & Hq & Hlen1 & _).
    set (t := WriteThenReadinto (device_address (i2c_device self))
                (query_register q :: out) 2) in Hq.
    destruct (IH self1 (bus ++ [t]) Hlen1)
      as (rs & self2 & issued & Hqs & Hrs & Hn & Hwr & Hpw & Hcfg).
    exists (r :: rs), self2, (t :: issued).
    cbn [run_queries].
    rewrite (bind_inr _ _ bus _ _ Hq). cbn beta iota.
    rewrite (bind_inr _ _ _ _ _ Hqs). cbn beta iota. unfold mret, M_ret.
    rewrite <- app_assoc. cbn [app].
    split; [reflexivity|].
    split; [by rewrite !length_cons, Hrs|].
    split; [by rewrite !length_cons, Hn|].
    split; [by constructor|]. split; [by constructor|].
    constructor; [apply query_register_not_cfg | exact Hcfg].
Qed.

End Traffic.

Lemma init_success_inv (address : Z) (tctype : string) (tcfilter : Z)
    (bus bus' : I2C) (self : MCP9600) :
  __init__ address tctype tcfilter bus = (inr self, bus') →
  ∃ cfg, bus' = bus ++ [Write address [_REGISTER_THERM_CFG; cfg]]
         ∧ buf self = [_REGISTER_THERM_CFG; cfg; 0]
         ∧ device_address (i2c_device self) = address.
Proof.
  intros Hinit.
  destruct (decide (tctype ∈ types)) as [Hin|Hnot].
  - destruct (list_elem_of_lookup_1 _ _ Hin) as (n & Hn).
    pose proof (init_valid address tctype tcfilter bus n Hn) as Hok.
    cbn zeta in Hok. rewrite Hok in Hinit.
    injection Hinit as <- <-. by eexists.
  - rewrite (init_invalid address tctype tcfilter bus Hnot) in Hinit.
    discriminate Hinit.
Qed.

(** C8. A construction that returns a driver has put exactly one transaction
    on the bus, a plain write addressed at register 0x05, and no read; each
    version or temperature query then adds exactly one combined
    write-then-read transaction and no plain write.  Hence, over the
    construction and any sequence of queries after it, exactly one
    transaction is a plain write and exactly one is addressed at the
    configuration register: the one the constructor sent. *)
Theorem bus_traffic_of_driver
    (peripheral : I2C → transaction → nat → byte)
    (address : Z) (tctype : string) (tcfilter : Z)
    (self : MCP9600) (bus : I2C) (qs : list query) :
  __init__ address tctype tcfilter [] = (inr self, bus) →
  (∃ cfg, bus = [Write address [0x05; cfg]])
  ∧ count_where is_write_then_read bus = 0%nat
  ∧ (∀ (q : query) (self0 : MCP9600) (bus0 : I2C),
       length (buf self0) = 3%nat →
       ∃ r self1 t, run_query peripheral q self0 bus0 = (inr (r, self1), bus0 ++ [t])
                    ∧ is_write_then_read t = true
                    ∧ is_plain_write t = false
                    ∧ addresses 0x05 t = false)
  ∧ ∃ rs self' bus',
      run_queries peripheral qs self bus = (inr (rs, self'), bus')
      ∧ length bus' = S (length qs)
      ∧ count_where is_plain_write bus' = 1%nat
      ∧ count_where is_write_then_read bus' = length qs
      ∧ count_where (addresses 0x05) bus' = 1%nat
      ∧ head bus' = head bus.
Proof.
  intros Hinit.
  destruct (init_success_inv _ _ _ _ _ _ Hinit) as (cfg & Hbus & Hbuf & _).
  cbn [app] in Hbus.
  assert (Hlen : length (buf self) = 3%nat) by (by rewrite Hbuf).
  split; [by exists cfg|]. split; [by rewrite Hbus|]. split.
  - intros q self0 bus0 Hlen0.
    destruct (run_query_spec peripheral q self0 bus0 Hlen0) as (r & self1 & out & Hq & _).
    eexists r, self1, _. split; [exact Hq|].
    split; [reflexivity|]. split; [reflexivity|]. apply query_register_not_cfg.
  - destruct (run_queries_spec peripheral qs self bus Hlen)
      as (rs & self' & issued & Hqs & _ & Hn & Hwr & Hpw & Hcfg).
    exists rs, self', (bus ++ issued). split; [exact Hqs|].
    pose proof (count_where_none _ _ Hcfg) as Hcfg0.
    change _REGISTER_THERM_CFG with 0x05 in Hcfg0.
    rewrite !count_where_app, length_app, Hn.
    rewrite (count_where_none _ _ Hpw), Hcfg0.
    rewrite Hbus. cbn [length app head].
    split; [reflexivity|]. split; [reflexivity|]. split; [|split; reflexivity].
    unfold count_where at 1. cbn [List.filter is_write_then_read length Nat.add].
    clear -Hwr Hn. rewrite <- Hn. clear Hn.
    induction Hwr as [|t l Ht _ IH]; [reflexivity|].
    unfold count_where in *. cbn [List.filter]. rewrite Ht. cbn [length]. by rewrite IH.
Qed.

Lemma bus_traffic_of_driver_witness :
  ∃ rs self' bus',
    run_queries (fixed_payload x01 x90)
      [Version; AmbientTemperature; Temperature; DeltaTemperature]
      fresh_driver fresh_bus = (inr (rs, self'), bus')
    ∧ length bus' = 5%nat
    ∧ count_where is_plain_write bus' = 1%nat
    ∧ count_where is_write_then_read bus' = 4%nat
    ∧ count_where (addresses 0x05) bus' = 1%nat
    ∧ head bus' = head fresh_bus.
Proof.
  destruct (bus_traffic_of_driver (fixed_payload x01 x90) _DEFAULT_ADDRESS "K" 0
              fresh_driver fresh_bus
              [Version; AmbientTemperature; Temperature; DeltaTemperature]
              fresh_driver_constructed)
    as (_ & _ & _ & Hrun).
  exact Hrun.
Defined.

(** ** Further properties of the driver *)

Lemma byte_val_byte_of (z : Z) : 0 ≤ z < 256 → byte_val (byte_of z) = z.
Proof.
  intros Hz. unfold byte_of, byte_val.
  destruct (Z.ltb_spec z 0); [lia|]. cbn beta iota.
  destruct (Byte.of_N (Z.to_N z)) as [b|] eqn:Hb.
  - change (default x00 (Some b)) with b. rewrite (Byte.to_of_N _ Hb). lia.
  - apply Byte.of_N_None_iff in Hb. lia.
Qed.

Lemma byte_val_inj (a b : byte) : byte_val a = byte_val b → a = b.
Proof.
  unfold byte_val. intros H.
  assert (Hn : Byte.to_N a = Byte.to_N b) by lia.
  pose proof (Byte.of_to_N a) as Ha. pose proof (Byte.of_to_N b) as Hb.
  rewrite Hn in Ha. rewrite Ha in Hb. by injection Hb.
Qed.

Lemma signed16_inj (x y : Z) :
  0 ≤ x < 65536 → 0 ≤ y < 65536 → signed16 x = signed16 y → x = y.
Proof.
  unfold signed16. intros Hx Hy.
  destruct (Z.ltb_spec x 32768); destruct (Z.ltb_spec y 32768);
    cbn beta iota; intros Heq; lia.
Qed.

Lemma signed16_wire (k : Z) : -32768 ≤ k < 32768 → signed16 (k mod 65536) = k.
Proof.
  intros Hk. unfold signed16.
  destruct (Z_lt_le_dec k 0) as [Hneg|Hpos].
  - rewrite <- (Z.mod_unique_pos k 65536 (-1) (k + 65536)) by lia.
    destruct (Z.ltb_spec (k + 65536) 32768); lia.
  - rewrite Z.mod_small by lia.
    destruct (Z.ltb_spec k 32768); lia.
Qed.

Lemma raw16_payload_of (raw : Z) :
  0 ≤ raw < 65536 →
  raw16 (byte_val (payload_of raw).1) (byte_val (payload_of raw).2) = raw.
Proof.
  intros Hraw. unfold payload_of. cbn [fst snd].
  assert (Hhi : 0 ≤ raw / 256 < 256) by (Z.div_mod_to_equations; lia).
  assert (Hlo : 0 ≤ raw mod 256 < 256) by (Z.div_mod_to_equations; lia).
  rewrite !byte_val_byte_of by assumption.
  rewrite raw16_big_endian by assumption.
  Z.div_mod_to_equations; lia.
Qed.

(** The decoding is the two's-complement reading of the pair, in sixteenths. *)
Lemma celsius_twos_complement (hi lo : byte) :
  (celsius_exact (byte_val hi) (byte_val lo)
   == inject_Z (signed16 (raw16 (byte_val hi) (byte_val lo))) * (1 # 16))%Q
  ∧ (celsius (byte_val hi) (byte_val lo)
     =? float_of_int (signed16 (raw16 (byte_val hi) (byte_val lo))) * 0.0625)%float
    = true.
Proof.
  assert (H : for_all_payloads twos_complement_exact = true)
    by (vm_compute; reflexivity).
  pose proof (for_all_payloads_spec _ H hi lo) as Hx.
  unfold twos_complement_exact in Hx. apply andb_true_iff in Hx as [Hq Hf].
  split; [by apply Qeq_bool_iff | exact Hf].
Qed.

Lemma sixteenths_inj (a b : Z) :
  (inject_Z a * (1 # 16) == inject_Z b * (1 # 16))%Q → a = b.
Proof. unfold Qeq, Qmult, inject_Z. cbn. lia. Qed.

Lemma celsius_inj (hi1 lo1 hi2 lo2 : byte) :
  celsius (byte_val hi1) (byte_val lo1) = celsius (byte_val hi2) (byte_val lo2) →
  hi1 = hi2 ∧ lo1 = lo2.
Proof.
  intros Heq.
  destruct (celsius_is_exact hi1 lo1) as (q1 & Hq1 & He1).
  destruct (celsius_is_exact hi2 lo2) as (q2 & Hq2 & He2).
  rewrite Heq, Hq2 in Hq1. injection Hq1 as <-.
  destruct (celsius_twos_complement hi1 lo1) as (Ht1 & _).
  destruct (celsius_twos_complement hi2 lo2) as (Ht2 & _).
  rewrite <- He1, He2, Ht2 in Ht1.
  apply sixteenths_inj in Ht1. symmetry in Ht1.
  apply signed16_inj in Ht1; [|apply raw16_range..].
  pose proof (byte_val_range hi1). pose proof (byte_val_range lo1).
  pose proof (byte_val_range hi2). pose proof (byte_val_range lo2).
  rewrite !raw16_big_endian in Ht1 by lia.
  split; apply byte_val_inj; lia.
Qed.

Section QueryEffects.

Variable peripheral : I2C → transaction → nat → byte.

(** The exact effect of one query on the driver, the bus and the result. *)
Lemma run_query_exact (q : query) (self : MCP9600) (bus : I2C) :
  length (buf self) = 3%nat →
  let t := read_transaction self (query_register q) 2 in
  let hi := byte_val (peripheral bus t 0%nat) in
  let lo := byte_val (peripheral bus t 1%nat) in
  run_query peripheral q self bus
  = (inr (reading_of q hi lo, after_read self (query_register q) hi lo),
     bus ++ [t]).
Proof.
  intros Hlen.
  destruct q; unfold run_query; cbn [query_register reading_of].
  - pose proof (version_spec peripheral self bus Hlen) as H. cbn zeta in H.
    by rewrite (bind_inr _ _ bus _ _ H).
  - pose proof (read_temperature_spec peripheral ColdJunction self bus Hlen) as H.
    cbn zeta in H. cbn [read_temperature register_address] in H.
    by rewrite (bind_inr _ _ bus _ _ H).
  - pose proof (read_temperature_spec peripheral HotJunction self bus Hlen) as H.
    cbn zeta in H. cbn [read_temperature register_address] in H.
    by rewrite (bind_inr _ _ bus _ _ H).
  - pose proof (read_temperature_spec peripheral DeltaTemp self bus Hlen) as H.
    cbn zeta in H. cbn [read_temperature register_address] in H.
    by rewrite (bind_inr _ _ bus _ _ H).
Qed.

Lemma query_register_byte (q : query) : 0 ≤ query_register q < 256.
Proof. by destruct q. Qed.

Lemma after_read_bytearray3 (self : MCP9600) (q : query) (hi lo : byte) :
  is_bytearray3 (buf (after_read self (query_register q) (byte_val hi) (byte_val lo))).
Proof.
  split; [reflexivity|]. cbn [buf after_read].
  repeat constructor;
    try apply query_register_byte; try apply byte_val_range.
Qed.

(** What any sequence of queries keeps: the three-byte buffer, the type, the
    device, and the address every transaction goes to. *)
Lemma run_queries_invariant (qs : list query) (self : MCP9600) (bus : I2C) :
  is_bytearray3 (buf self) →
  ∃ rs self' issued,
    run_queries peripheral qs self bus = (inr (rs, self'), bus ++ issued)
    ∧ is_bytearray3 (buf self')
    ∧ type self' = type self
    ∧ i2c_device self' = i2c_device self
    ∧ Forall (λ t, transaction_address t = device_address (i2c_device self)) issued.
Proof.
  revert self bus. induction qs as [|q qs IH]; intros self bus Hwf.
  - exists [], self, []. cbn [run_queries]. unfold mret, M_ret.
    rewrite app_nil_r. repeat split; try apply Hwf. constructor.
  - pose proof (run_query_exact q self bus (proj1 Hwf)) as Hq. cbn zeta in Hq.
    set (t := read_transaction self (query_register q) 2) in Hq.
    set (self1 := after_read self _ _ _) in Hq.
    destruct (IH self1 (bus ++ [t]) (after_read_bytearray3 self q _ _))
      as (rs & self2 & issued & Hqs & Hwf2 & Hty & Hdev & Haddr).
    exists (reading_of q (byte_val (peripheral bus t 0%nat))
              (byte_val (peripheral bus t 1%nat)) :: rs), self2, (t :: issued).
    cbn [run_queries].
    rewrite (bind_inr _ _ bus _ _ Hq). cbn beta iota.
    rewrite (bind_inr _ _ _ _ _ Hqs). cbn beta iota. unfold mret, M_ret.
    rewrite <- app_assoc. cbn [app].
    split; [reflexivity|]. split; [exact Hwf2|].
    split; [exact Hty|]. split; [exact Hdev|].
    constructor; [reflexivity | exact Haddr].
Qed.

End QueryEffects.

(** X1. The constructor uses the filter level only through its clamp: a
    level at or below 0 behaves as 0, a level at or above 7 as 7, for a
    recognised type and an unknown one alike. *)
Theorem init_filter_through_clamp
    (address : Z) (tctype : string) (tcfilter : Z) (bus : I2C) :
  __init__ address tctype tcfilter bus
  = __init__ address tctype (clamp tcfilter 0 7) bus
  ∧ (tcfilter ≤ 0 →
     __init__ address tctype tcfilter bus = __init__ address tctype 0 bus)
  ∧ (7 ≤ tcfilter →
     __init__ address tctype tcfilter bus = __init__ address tctype 7 bus).
Proof.
  assert (Hgen : ∀ f g, Z.min 7 (Z.max 0 f) = Z.min 7 (Z.max 0 g) →
                        __init__ address tctype f bus = __init__ address tctype g bus).
  { intros f g Hfg. unfold __init__. cbn zeta. by rewrite Hfg. }
  split; [|split].
  - apply Hgen. unfold clamp. lia.
  - intros Hle. apply Hgen. lia.
  - intros Hge. apply Hgen. lia.
Qed.

(** X2. The configuration byte determines the configuration: for
    recognised types, two constructions leave the same bus log exactly when
    the types are equal and the clamped filters are equal, and the type is
    recovered from the high nibble of the byte sent, which never exceeds
    0x77. *)
Theorem init_config_byte_determines_configuration
    (address : Z) (t1 t2 : string) (f1 f2 : Z) (bus : I2C) :
  t1 ∈ types → t2 ∈ types →
  (snd (__init__ address t1 f1 bus) = snd (__init__ address t2 f2 bus)
   ↔ t1 = t2 ∧ clamp f1 0 7 = clamp f2 0 7)
  ∧ ∃ cfg, snd (__init__ address t1 f1 bus) = bus ++ [Write address [0x05; cfg]]
           ∧ types !! Z.to_nat (Z.shiftr cfg 4) = Some t1
           ∧ Z.land cfg 0xF = clamp f1 0 7
           ∧ 0 ≤ cfg ≤ 0x77.
Proof.
  intros Hin1 Hin2.
  destruct (list_elem_of_lookup_1 _ _ Hin1) as (n1 & Hn1).
  destruct (list_elem_of_lookup_1 _ _ Hin2) as (n2 & Hn2).
  pose proof (types_lookup_lt _ _ Hn1) as Hlt1.
  pose proof (types_lookup_lt _ _ Hn2) as Hlt2.
  pose proof (clamp_range f1) as Hc1. pose proof (clamp_range f2) as Hc2.
  destruct (cfg_byte_nibbles (clamp f1 0 7) (Z.of_nat n1)) as (Hb1 & Hlow1 & Hhigh1);
    [exact Hc1 | lia |].
  destruct (cfg_byte_nibbles (clamp f2 0 7) (Z.of_nat n2)) as (Hb2 & Hlow2 & Hhigh2);
    [exact Hc2 | lia |].
  rewrite (init_valid address t1 f1 bus n1 Hn1), (init_valid address t2 f2 bus n2 Hn2).
  cbn [snd]. split.
  - split.
    + intros Heq. apply app_inv_head in Heq. injection Heq as Hcfg.
      assert (Hn : Z.of_nat n1 = Z.of_nat n2) by (by rewrite <- Hhigh1, Hcfg, Hhigh2).
      assert (n1 = n2) as -> by lia.
      split; [congruence|]. by rewrite <- Hlow1, Hcfg, Hlow2.
    + intros [-> Hc]. rewrite Hc.
      assert (n1 = n2) as ->; [|reflexivity].
      eapply NoDup_lookup; [apply types_NoDup | exact Hn1 | exact Hn2].
  - eexists. split; [reflexivity|].
    rewrite Hhigh1, Nat2Z.id. split; [exact Hn1|]. split; [exact Hlow1|].
    destruct (small_cases _ Hc1) as [->|[->|[->|[->|[->|[->|[->| ->]]]]]]];
      do 8 (destruct n1 as [|n1]; [vm_compute; split; discriminate|]); lia.
Qed.

Lemma init_config_byte_determines_configuration_witness :
  (snd (__init__ 0x67 "J" 9 []) = snd (__init__ 0x67 "J" 7 [])
   ↔ "J" = "J" ∧ clamp 9 0 7 = clamp 7 0 7)
  ∧ ∃ cfg, snd (__init__ 0x67 "J" 9 []) = [] ++ [Write 0x67 [0x05; cfg]]
           ∧ types !! Z.to_nat (Z.shiftr cfg 4) = Some "J"
           ∧ Z.land cfg 0xF = clamp 9 0 7
           ∧ 0 ≤ cfg ≤ 0x77.
Proof.
  apply (init_config_byte_determines_configuration 0x67 "J" "J" 9 7 []);
    unfold types; apply list_elem_of_further, list_elem_of_here.
Defined.

(** X3. Over the whole life of a driver, construction followed by any
    sequence of property reads, nothing raises, the buffer stays three bytes
    each within 0..255, the type and the device address stay the
    constructor's arguments, and every transaction on the bus goes to that
    address. *)
Theorem driver_invariant
    (peripheral : I2C → transaction → nat → byte)
    (address : Z) (tctype : string) (tcfilter : Z)
    (self0 : MCP9600) (bus0 : I2C) (qs : list query) :
  __init__ address tctype tcfilter [] = (inr self0, bus0) →
  ∃ rs self bus,
    run_queries peripheral qs self0 bus0 = (inr (rs, self), bus)
    ∧ is_bytearray3 (buf self)
    ∧ type self = tctype
    ∧ device_address (i2c_device self) = address
    ∧ Forall (λ t, transaction_address t = address) bus.
Proof.
  intros Hinit.
  assert (Hin : tctype ∈ types).
  { destruct (decide (tctype ∈ types)) as [Hin|Hnot]; [exact Hin|].
    rewrite (init_invalid address tctype tcfilter [] Hnot) in Hinit.
    discriminate Hinit. }
  destruct (list_elem_of_lookup_1 _ _ Hin) as (n & Hn).
  pose proof (types_lookup_lt _ _ Hn) as Hlt.
  destruct (cfg_byte_nibbles (clamp tcfilter 0 7) (Z.of_nat n)) as (Hcfg & _ & _);
    [apply clamp_range | lia |].
  rewrite (init_valid address tctype tcfilter [] n Hn) in Hinit.
  injection Hinit as <- <-.
  match goal with |- context [run_queries _ _ ?s ?b] =>
    set (self0 := s); set (bus0 := b) end.
  assert (Hwf : is_bytearray3 (buf self0)).
  { split; [reflexivity|]. cbn [buf self0].
    repeat constructor; try exact (proj1 Hcfg); try exact (proj2 Hcfg); done. }
  destruct (run_queries_invariant peripheral qs self0 bus0 Hwf)
    as (rs & self & issued & Hrun & Hwf' & Hty & Hdev & Haddr).
  exists rs, self, (bus0 ++ issued).
  split; [exact Hrun|]. split; [exact Hwf'|].
  split; [by rewrite Hty|]. split; [by rewrite Hdev|].
  subst bus0. cbn [app]. constructor; [reflexivity | exact Haddr].
Qed.

Lemma driver_invariant_witness :
  ∃ rs self bus,
    run_queries (fixed_payload xff xff) [Temperature; Version; Temperature]
      fresh_driver fresh_bus = (inr (rs, self), bus)
    ∧ is_bytearray3 (buf self)
    ∧ type self = "K"
    ∧ device_address (i2c_device self) = _DEFAULT_ADDRESS
    ∧ Forall (λ t, transaction_address t = _DEFAULT_ADDRESS) bus.
Proof.
  exact (driver_invariant (fixed_payload xff xff) _DEFAULT_ADDRESS "K" 0
           fresh_driver fresh_bus [Temperature; Version; Temperature]
           fresh_driver_constructed).
Defined.

Lemma run_queries_cons (peripheral : I2C → transaction → nat → byte)
    (q : query) (qs : list query) (self : MCP9600) :
  run_queries peripheral (q :: qs) self
  = ('(r, self) ← run_query peripheral q self;
     '(rs, self) ← run_queries peripheral qs self;
     mret (r :: rs, self)).
Proof. reflexivity. Qed.

(** X4. Two property reads in a row share the buffer: the write phase of
    each carries, after the register address, whatever offset 1 held before,
    so the second read sends the high payload byte of the first; the
    readings themselves depend only on what the chip answered, and the
    buffer ends as the second register address followed by the second
    payload. *)
Theorem consecutive_queries_share_buffer
    (peripheral : I2C → transaction → nat → byte)
    (q1 q2 : query) (self : MCP9600) (bus : I2C) (b0 b1 b2 : Z) :
  buf self = [b0; b1; b2] →
  let a := device_address (i2c_device self) in
  let t1 := WriteThenReadinto a [query_register q1; b1] 2 in
  let hi1 := byte_val (peripheral bus t1 0%nat) in
  let lo1 := byte_val (peripheral bus t1 1%nat) in
  let t2 := WriteThenReadinto a [query_register q2; hi1] 2 in
  let hi2 := byte_val (peripheral (bus ++ [t1]) t2 0%nat) in
  let lo2 := byte_val (peripheral (bus ++ [t1]) t2 1%nat) in
  ∃ self',
    run_queries peripheral [q1; q2] self bus
    = (inr ([reading_of q1 hi1 lo1; reading_of q2 hi2 lo2], self'),
       bus ++ [t1; t2])
    ∧ buf self' = [query_register q2; hi2; lo2].
Proof.
  intros Hbuf a t1 hi1 lo1 t2 hi2 lo2.
  assert (Hlen : length (buf self) = 3%nat) by (by rewrite Hbuf).
  pose proof (run_query_exact peripheral q1 self bus Hlen) as H1.
  cbn zeta in H1. unfold read_transaction in H1. rewrite Hbuf in H1.
  cbn [length Nat.sub take list_insert insert] in H1.
  fold a t1 hi1 lo1 in H1.
  set (self1 := after_read self (query_register q1) hi1 lo1) in H1.
  pose proof (run_query_exact peripheral q2 self1 (bus ++ [t1]) eq_refl) as H2.
  cbn zeta in H2. unfold read_transaction in H2.
  cbn [buf self1 after_read i2c_device length Nat.sub take list_insert insert] in H2.
  fold a t2 hi2 lo2 in H2.
  assert (H2' : run_queries peripheral [q2] self1 (bus ++ [t1])
                = (inr ([reading_of q2 hi2 lo2],
                        after_read self1 (query_register q2) hi2 lo2),
                   (bus ++ [t1]) ++ [t2])).
  { cbn [run_queries]. by rewrite (bind_inr _ _ _ _ _ H2). }
  eexists. rewrite run_queries_cons.
  rewrite (bind_inr _ _ bus _ _ H1). cbn beta iota.
  rewrite (bind_inr _ _ _ _ _ H2'). cbn beta iota.
  unfold mret, M_ret. rewrite <- app_assoc. cbn [app].
  split; reflexivity.
Qed.

Lemma consecutive_queries_share_buffer_witness :
  ∃ self',
    run_queries (fixed_payload x01 x90) [Version; Temperature] fresh_driver fresh_bus
    = (inr ([IntReading 400; FloatReading 25%float], self'),
       fresh_bus ++ [WriteThenReadinto 0x67 [0x20; 0x00] 2;
                     WriteThenReadinto 0x67 [0x00; 0x01] 2])
    ∧ buf self' = [0x00; 0x01; 0x90].
Proof.
  exact (consecutive_queries_share_buffer (fixed_payload x01 x90)
           Version Temperature fresh_driver fresh_bus 0x05 0x00 0x00 eq_refl).
Defined.

(** X5. A register number that is not a byte is rejected by the buffer
    itself: [_read_register] raises ValueError at the store into offset 0,
    before any transaction is requested. *)
Theorem read_register_rejects_non_byte
    (peripheral : I2C → transaction → nat → byte)
    (self : MCP9600) (reg : Z) (count : nat) (bus : I2C) :
  length (buf self) = 3%nat → ¬ (0 ≤ reg < 256) →
  _read_register peripheral self reg count bus = (inl ValueError, bus).
Proof.
  intros Hlen Hreg. unfold _read_register.
  apply bind_inl. unfold setitem.
  rewrite decide_True by (rewrite Hlen; lia).
  by rewrite decide_False by exact Hreg.
Qed.

Lemma read_register_rejects_non_byte_witness :
  _read_register (fixed_payload x00 x00) fresh_driver 256 2 fresh_bus
  = (inl ValueError, fresh_bus).
Proof.
  apply (read_register_rejects_non_byte (fixed_payload x00 x00) fresh_driver 256 2
           fresh_bus eq_refl).
  lia.
Defined.

(** X6. For any register byte and any [count], [_read_register] requests
    one combined transaction whose write phase is the first [count] bytes of
    the buffer after the register address is stored at offset 0 (nothing for
    0, the whole buffer from 3 on) and whose read phase is always the two
    bytes after offset 0; it returns the buffer with the register address
    and those two bytes. *)
Theorem read_register_any_count
    (peripheral : I2C → transaction → nat → byte)
    (self : MCP9600) (reg : Z) (count : nat) (bus : I2C) (b0 b1 b2 : Z) :
  buf self = [b0; b1; b2] → 0 ≤ reg < 256 →
  let out := take count [reg; b1; b2] in
  let t := WriteThenReadinto (device_address (i2c_device self)) out 2 in
  let hi := byte_val (peripheral bus t 0%nat) in
  let lo := byte_val (peripheral bus t 1%nat) in
  _read_register peripheral self reg count bus
  = (inr ([reg; hi; lo], after_read self reg hi lo), bus ++ [t])
  ∧ length out = Nat.min count 3
  ∧ (count = 0%nat → out = [])
  ∧ (3 ≤ count → out = [reg; b1; b2])%nat.
Proof.
  intros Hbuf Hreg out t hi lo.
  assert (Hlen : length (buf self) = 3%nat) by (by rewrite Hbuf).
  pose proof (read_register_spec peripheral self reg count bus Hlen Hreg) as Hrd.
  cbn zeta in Hrd. unfold read_transaction in Hrd. rewrite Hbuf in Hrd.
  cbn [length Nat.sub list_insert insert] in Hrd.
  split; [exact Hrd|]. split; [|split].
  - unfold out. by rewrite length_take.
  - intros ->. reflexivity.
  - intros Hge. unfold out. by rewrite take_ge.
Qed.

Lemma read_register_any_count_witness :
  _read_register (fixed_payload x12 x34) fresh_driver 0x02 0 fresh_bus
  = (inr ([0x02; 0x12; 0x34], after_read fresh_driver 0x02 0x12 0x34),
     fresh_bus ++ [WriteThenReadinto 0x67 [] 2]).
Proof.
  assert (Hreg : 0 ≤ 0x02 < 256) by lia.
  exact (proj1 (read_register_any_count (fixed_payload x12 x34) fresh_driver
                  0x02 0 fresh_bus 0x05 0x00 0x00 eq_refl Hreg)).
Defined.

(** X7. The value a temperature read returns is the payload read as a
    two's-complement 16-bit number, times 0.0625: exactly, as a rational,
    and as the float product. *)
Theorem temperature_is_twos_complement
    (peripheral : I2C → transaction → nat → byte)
    (r : temperature_register) (self : MCP9600) (bus : I2C) :
  length (buf self) = 3%nat →
  ∃ (value : float) (self' : MCP9600) (bus' : I2C) (hi lo : byte) (q : Q),
    read_temperature peripheral r self bus = (inr (value, self'), bus')
    ∧ buf self' = [register_address r; byte_val hi; byte_val lo]
    ∧ float_to_Q value = Some q
    ∧ (q == inject_Z (signed16 (256 * byte_val hi + byte_val lo)) * (1 # 16))%Q
    ∧ (value =? float_of_int (signed16 (256 * byte_val hi + byte_val lo)) * 0.0625)%float
      = true.
Proof.
  intros Hlen.
  pose proof (read_temperature_spec peripheral r self bus Hlen) as Hrd.
  cbn zeta in Hrd.
  set (t := read_transaction self (register_address r) 2) in Hrd.
  set (hi := peripheral bus t 0%nat) in Hrd.
  set (lo := peripheral bus t 1%nat) in Hrd.
  destruct (celsius_is_exact hi lo) as (q & Hq & Heq).
  destruct (celsius_twos_complement hi lo) as (Hsigned & Hfloat).
  rewrite raw16_big_endian in Hsigned, Hfloat by apply byte_val_range.
  exists (celsius (byte_val hi) (byte_val lo)),
    (after_read self (register_address r) (byte_val hi) (byte_val lo)),
    (bus ++ [t]), hi, lo, q.
  split; [exact Hrd|]. split; [reflexivity|]. split; [exact Hq|].
  split; [by rewrite Heq | exact Hfloat].
Qed.

Lemma temperature_is_twos_complement_witness :
  ∃ (value : float) (self' : MCP9600) (bus' : I2C) (hi lo : byte) (q : Q),
    read_temperature (fixed_payload xff xf0) DeltaTemp fresh_driver fresh_bus
    = (inr (value, self'), bus')
    ∧ buf self' = [register_address DeltaTemp; byte_val hi; byte_val lo]
    ∧ float_to_Q value = Some q
    ∧ (q == inject_Z (signed16 (256 * byte_val hi + byte_val lo)) * (1 # 16))%Q
    ∧ (value =? float_of_int (signed16 (256 * byte_val hi + byte_val lo)) * 0.0625)%float
      = true.
Proof.
  exact (temperature_is_twos_complement (fixed_payload xff xf0) DeltaTemp
           fresh_driver fresh_bus eq_refl).
Defined.

(** X8. Two temperature reads, of any of the three registers, on any
    drivers and buses, return the same value exactly when the chip answered
    the same two bytes: the three properties decode alike, nothing but the
    payload enters the value, and distinct payloads give distinct
    temperatures. *)
Theorem temperature_value_iff_payload
    (p1 p2 : I2C → transaction → nat → byte)
    (r1 r2 : temperature_register) (self1 self2 : MCP9600) (bus1 bus2 : I2C) :
  length (buf self1) = 3%nat → length (buf self2) = 3%nat →
  ∃ (v1 v2 : float) (s1 s2 : MCP9600) (l1 l2 : I2C) (hi1 lo1 hi2 lo2 : byte),
    read_temperature p1 r1 self1 bus1 = (inr (v1, s1), l1)
    ∧ read_temperature p2 r2 self2 bus2 = (inr (v2, s2), l2)
    ∧ buf s1 = [register_address r1; byte_val hi1; byte_val lo1]
    ∧ buf s2 = [register_address r2; byte_val hi2; byte_val lo2]
    ∧ (v1 = v2 ↔ hi1 = hi2 ∧ lo1 = lo2).
Proof.
  intros Hlen1 Hlen2.
  pose proof (read_temperature_spec p1 r1 self1 bus1 Hlen1) as H1.
  pose proof (read_temperature_spec p2 r2 self2 bus2 Hlen2) as H2.
  cbn zeta in H1, H2.
  set (hi1 := p1 bus1 _ 0%nat) in H1. set (lo1 := p1 bus1 _ 1%nat) in H1.
  set (hi2 := p2 bus2 _ 0%nat) in H2. set (lo2 := p2 bus2 _ 1%nat) in H2.
  eexists _, _, _, _, _, _, hi1, lo1, hi2, lo2.
  split; [exact H1|]. split; [exact H2|].
  split; [reflexivity|]. split; [reflexivity|]. split.
  - apply celsius_inj.
  - by intros [-> ->].
Qed.

Lemma temperature_value_iff_payload_witness :
  ∃ (v1 v2 : float) (s1 s2 : MCP9600) (l1 l2 : I2C) (hi1 lo1 hi2 lo2 : byte),
    read_temperature (fixed_payload x01 x90) HotJunction fresh_driver fresh_bus
    = (inr (v1, s1), l1)
    ∧ read_temperature (fixed_payload x01 x90) ColdJunction fresh_driver []
      = (inr (v2, s2), l2)
    ∧ buf s1 = [register_address HotJunction; byte_val hi1; byte_val lo1]
    ∧ buf s2 = [register_address ColdJunction; byte_val hi2; byte_val lo2]
    ∧ (v1 = v2 ↔ hi1 = hi2 ∧ lo1 = lo2).
Proof.
  exact (temperature_value_iff_payload (fixed_payload x01 x90) (fixed_payload x01 x90)
           HotJunction ColdJunction fresh_driver fresh_driver fresh_bus []
           eq_refl eq_refl).
Defined.

(** X9. Round trip of the version register: for every 16-bit number, a chip
    that answers with its big-endian bytes makes [version] return that
    number, whatever the buffer held. *)
Theorem version_round_trip (self : MCP9600) (bus : I2C) (v : Z) :
  length (buf self) = 3%nat → 0 ≤ v < 65536 →
  ∃ self', version (answers v) self bus
           = (inr (v, self'), bus ++ [read_transaction self _REGISTER_VERSION 2]).
Proof.
  intros Hlen Hv.
  pose proof (version_spec (answers v) self bus Hlen) as Hrd. cbn zeta in Hrd.
  unfold answers at 2 3 in Hrd. cbn [fixed_payload] in Hrd.
  rewrite (raw16_payload_of v Hv) in Hrd. eauto.
Qed.

Lemma version_round_trip_witness :
  ∃ self', version (answers 0xBEEF) fresh_driver fresh_bus
           = (inr (0xBEEF, self'),
              fresh_bus ++ [read_transaction fresh_driver _REGISTER_VERSION 2]).
Proof.
  apply (version_round_trip fresh_driver fresh_bus 0xBEEF eq_refl). lia.
Defined.

(** X10. Round trip of a temperature register: for every count k of
    sixteenths of a degree with -32768 <= k < 32768, a chip that answers
    with the big-endian bytes of the 16-bit two's complement of k makes each
    of the three temperature reads return k * 0.0625 exactly. *)
Theorem temperature_round_trip
    (r : temperature_register) (self : MCP9600) (bus : I2C) (k : Z) :
  length (buf self) = 3%nat → -32768 ≤ k < 32768 →
  ∃ (value : float) (self' : MCP9600) (q : Q),
    read_temperature (answers (k mod 65536)) r self bus
    = (inr (value, self'), bus ++ [read_transaction self (register_address r) 2])
    ∧ float_to_Q value = Some q
    ∧ (q == inject_Z k * (1 # 16))%Q
    ∧ (value =? float_of_int k * 0.0625)%float = true.
Proof.
  intros Hlen Hk.
  assert (Hraw : 0 ≤ k mod 65536 < 65536) by (by apply Z.mod_pos_bound).
  pose proof (read_temperature_spec (answers (k mod 65536)) r self bus Hlen) as Hrd.
  cbn zeta in Hrd. unfold answers at 2 3 4 5 in Hrd. cbn [fixed_payload] in Hrd.
  set (hi := (payload_of (k mod 65536)).1) in *.
  set (lo := (payload_of (k mod 65536)).2) in *.
  destruct (celsius_is_exact hi lo) as (q & Hq & Heq).
  destruct (celsius_twos_complement hi lo) as (Hsigned & Hfloat).
  unfold hi, lo in Hsigned, Hfloat.
  rewrite (raw16_payload_of _ Hraw), (signed16_wire k Hk) in Hsigned, Hfloat.
  eexists _, _, q. split; [exact Hrd|]. split; [exact Hq|].
  split; [by rewrite Heq | exact Hfloat].
Qed.

Lemma temperature_round_trip_witness :
  ∃ (value : float) (self' : MCP9600) (q : Q),
    read_temperature (answers ((-40) mod 65536)) ColdJunction fresh_driver fresh_bus
    = (inr (value, self'),
       fresh_bus ++ [read_transaction fresh_driver (register_address ColdJunction) 2])
    ∧ float_to_Q value = Some q
    ∧ (q == inject_Z (-40) * (1 # 16))%Q
    ∧ (value =? float_of_int (-40) * 0.0625)%float = true.
Proof.
  apply (temperature_round_trip ColdJunction fresh_driver fresh_bus (-40) eq_refl).
  lia.
Defined.
